(** * Demonstration.py: the CustomDataAlgorithm strategy

    A shallow embedding of [src/Demonstration.py] and the properties of its
    three callbacks.  The strategy is a Python class deriving from the host
    engine's [QCAlgorithm]; it stores two symbols in instance attributes,
    reads engine-owned objects (the data slice, the order event) and sends
    commands back to the engine.

    Python is modelled as it runs:
    - an instance is its attribute dictionary ([gmap string value]); reading
      an attribute looks in that dictionary, then in the base class, and
      raises [AttributeError] otherwise;
    - engine-owned objects live in a store and are passed by reference;
    - exceptions propagate: a callback is a state transformer that returns
      either a value or the exception raised, together with the state
      reached at that point. *)

From stdpp Require Import base gmap strings list fin_maps.

Open Scope Z_scope.
Open Scope string_scope.
Open Scope list_scope.

(** ** The host's data types, as far as the script touches them *)

(** Modelled from the spec: the instrument handle returned by the host's
    subscription calls.  An equity handle carries its ticker; a custom-data
    handle carries the record type and the handle of the instrument it is
    bound to. *)
Inductive Symbol : Type :=
| EquitySymbol (ticker : string)
| CustomSymbol (record_type : string) (underlying : Symbol).

(** Modelled from the spec: the text a handle is formatted to inside an
    f-string (the instrument identifier). *)
Fixpoint Symbol_str (s : Symbol) : string :=
  match s with
  | EquitySymbol ticker => ticker
  | CustomSymbol record_type underlying =>
      Symbol_str underlying +:+ "." +:+ record_type
  end.

Global Instance Symbol_eq_dec : EqDecision Symbol.
Proof. solve_decision. Defined.

Fixpoint Symbol_encode (s : Symbol) : string * list string :=
  match s with
  | EquitySymbol ticker => (ticker, [])
  | CustomSymbol record_type underlying =>
      let '(ticker, tys) := Symbol_encode underlying in
      (ticker, record_type :: tys)
  end.

Fixpoint Symbol_decode_from (ticker : string) (tys : list string) : Symbol :=
  match tys with
  | [] => EquitySymbol ticker
  | ty :: tys' => CustomSymbol ty (Symbol_decode_from ticker tys')
  end.

Definition Symbol_decode (p : string * list string) : Symbol :=
  Symbol_decode_from p.1 p.2.

Lemma Symbol_decode_encode (s : Symbol) : Symbol_decode (Symbol_encode s) = s.
Proof.
  unfold Symbol_decode.
  induction s as [ticker | ty u IH]; simpl; [done |].
  destruct (Symbol_encode u) as [ticker tys]; simpl in *.
  by rewrite IH.
Qed.

Global Instance Symbol_countable : Countable Symbol :=
  inj_countable' Symbol_encode Symbol_decode Symbol_decode_encode.

Module Resolution.
(** Modelled from the spec: the sampling granularity of a feed. *)
Inductive t : Type := Tick | Second | Minute | Hour | Daily.
End Resolution.

Module OrderStatus.
(** Modelled from the spec: the enumerated lifecycle states of an order,
    among them the terminal state [Filled]. *)
Inductive t : Type :=
| New | Submitted | PartiallyFilled | Filled | Canceled
| None | Invalid | CancelPending | UpdateSubmitted.

Global Instance eq_dec : EqDecision t.
Proof. solve_decision. Defined.
End OrderStatus.

Module MyCustomDataType.
(** Modelled from the spec: the custom record, with its signal field. *)
Record t : Type := Build { SomeCustomProperty : string }.
End MyCustomDataType.

Module OrderEvent.
Record t : Type := Build { Status : OrderStatus.t; Symbol : Symbol }.
End OrderEvent.

Module Slice.
(** [Get] is the result of [slice.Get(MyCustomDataType)]: the records of
    that type present at this time step, keyed by handle. *)
Record t : Type := Build { Get : gmap Symbol MyCustomDataType.t }.
End Slice.

Module Security.
Record t : Type := Build { Symbol : Symbol }.
End Security.

Record Date : Type := mkDate { year : Z; month : Z; day : Z }.

(** ** Python values, exceptions and the store *)

(** What an attribute of the strategy instance evaluates to: a handle the
    script stored, or a member inherited from the base class. *)
Inductive value : Type :=
| VSymbol (s : Symbol)
| VBaseMember (name : string).

Inductive Exception : Type :=
| AttributeError (name : string)
| KeyError (key : value)
| TypeError.

(** Engine-owned objects; callbacks receive references to them. *)
Inductive EngineObject : Type :=
| SliceObject (s : Slice.t)
| OrderEventObject (e : OrderEvent.t).

Definition ref : Type := nat.

Inductive Subscription : Type :=
| EquitySubscription (ticker : string) (resolution : Resolution.t)
| CustomDataSubscription (record_type : string) (underlying : Symbol).

(** The host's side of the registration, order-command and diagnostic
    interfaces: what it has been told so far. *)
Record Host : Type := mkHost {
  start_date : option Date;
  end_date : option Date;
  subscriptions : list Subscription;
  holdings_commands : list (value * Z);
  debug_messages : list string
}.

Record World : Type := mkWorld {
  self : gmap string value;
  host : Host;
  objects : gmap ref EngineObject
}.

Definition set_self (f : gmap string value → gmap string value) (w : World) : World :=
  mkWorld (f (self w)) (host w) (objects w).

Definition set_host (f : Host → Host) (w : World) : World :=
  mkWorld (self w) (f (host w)) (objects w).

(** ** The monad of callbacks: state and exceptions *)

Inductive Outcome (A : Type) : Type :=
| Returned (a : A)
| Raised (e : Exception).
Arguments Returned {A} a.
Arguments Raised {A} e.

Definition M (A : Type) : Type := World → Outcome A * World.

Definition ret {A} (a : A) : M A := fun w => (Returned a, w).
Definition raise {A} (e : Exception) : M A := fun w => (Raised e, w).
Definition bind {A B} (m : M A) (k : A → M B) : M B :=
  fun w =>
    match m w with
    | (Returned a, w') => k a w'
    | (Raised e, w') => (Raised e, w')
    end.
Definition modify (f : World → World) : M unit := fun w => (Returned tt, f w).

Notation "'let*' x := m 'in' k" := (bind m (fun x => k))
  (at level 10, x name, m at level 100, k at level 200).

(** ** Python's attribute and item access *)

Section Strategy.

(** The names the base class [QCAlgorithm] defines.  The class is the
    host's, not the script's, so it is left open here. *)
Variable base_member : string → bool.

(** [self.name]: the instance dictionary first, then the base class. *)
Definition getattr (name : string) : M value :=
  fun w =>
    match self w !! name with
    | Some v => (Returned v, w)
    | None =>
        if base_member name then (Returned (VBaseMember name), w)
        else (Raised (AttributeError name), w)
    end.

(** [self.name = v] *)
Definition setattr (name : string) (v : value) : M unit :=
  modify (set_self (insert name v)).

(** [slice.Get(MyCustomDataType)]: only a slice has the method. *)
Definition Slice_Get (slice : ref) : M (gmap Symbol MyCustomDataType.t) :=
  fun w =>
    match objects w !! slice with
    | Some (SliceObject s) => (Returned (Slice.Get s), w)
    | _ => (Raised (AttributeError "Get"), w)
    end.

(** [orderEvent.Status] and [orderEvent.Symbol] *)
Definition OrderEvent_attr {A} (name : string) (proj : OrderEvent.t → A)
    (orderEvent : ref) : M A :=
  fun w =>
    match objects w !! orderEvent with
    | Some (OrderEventObject e) => (Returned (proj e), w)
    | _ => (Raised (AttributeError name), w)
    end.

(** [if data:] on a mapping tests that it has at least one entry. *)
Definition truthy (data : gmap Symbol MyCustomDataType.t) : bool :=
  negb (Nat.eqb (size data) 0).

(** [data[key]]: a key that is not in the mapping raises [KeyError]. *)
Definition getitem (data : gmap Symbol MyCustomDataType.t) (key : value)
    : M MyCustomDataType.t :=
  match key with
  | VSymbol s =>
      match data !! s with
      | Some r => ret r
      | None => raise (KeyError key)
      end
  | VBaseMember _ => raise (KeyError key)
  end.

(** ** The host interface the script calls *)

Definition SetStartDate (y m d : Z) : M unit :=
  modify (set_host (fun h =>
    mkHost (Some (mkDate y m d)) (end_date h) (subscriptions h)
           (holdings_commands h) (debug_messages h))).

Definition SetEndDate (y m d : Z) : M unit :=
  modify (set_host (fun h =>
    mkHost (start_date h) (Some (mkDate y m d)) (subscriptions h)
           (holdings_commands h) (debug_messages h))).

Definition add_subscription (s : Subscription) : M unit :=
  modify (set_host (fun h =>
    mkHost (start_date h) (end_date h) (subscriptions h ++ [s])
           (holdings_commands h) (debug_messages h))).

Definition AddEquity (ticker : string) (resolution : Resolution.t) : M Security.t :=
  let* _ := add_subscription (EquitySubscription ticker resolution) in
  ret (Security.Build (EquitySymbol ticker)).

(** The second argument is whatever the script passes; the host accepts a
    handle. *)
Definition AddData (record_type : string) (underlying : value) : M Security.t :=
  match underlying with
  | VSymbol s =>
      let* _ := add_subscription (CustomDataSubscription record_type s) in
      ret (Security.Build (CustomSymbol record_type s))
  | VBaseMember _ => raise TypeError
  end.

Definition SetHoldings (target : value) (weight : Z) : M unit :=
  modify (set_host (fun h =>
    mkHost (start_date h) (end_date h) (subscriptions h)
           (holdings_commands h ++ [(target, weight)]) (debug_messages h))).

Definition Debug (message : string) : M unit :=
  modify (set_host (fun h =>
    mkHost (start_date h) (end_date h) (subscriptions h)
           (holdings_commands h) (debug_messages h ++ [message]))).

(** ** class CustomDataAlgorithm(QCAlgorithm) *)

Definition Initialize : M unit :=
  let* _ := SetStartDate 2020 10 7 in
  let* _ := SetEndDate 2020 10 11 in
  let* spy := AddEquity "SPY" Resolution.Daily in
  let* _ := setattr "equity_symbol" (VSymbol (Security.Symbol spy)) in
  let* underlying := getattr "equity_symbol" in
  let* custom := AddData "MyCustomDataType" underlying in
  setattr "custom_data_symbol" (VSymbol (Security.Symbol custom)).

Definition OnData (slice : ref) : M unit :=
  let* data := Slice_Get slice in
  if truthy data then
    let* key := getattr "custom_data_symbol" in
    let* custom_data := getitem data key in
    if String.eqb (MyCustomDataType.SomeCustomProperty custom_data) "buy" then
      let* target := getattr "equitySymbol" in
      SetHoldings target 1
    else if String.eqb (MyCustomDataType.SomeCustomProperty custom_data) "sell" then
      let* target := getattr "equitySymbol" in
      SetHoldings target (-1)
    else ret tt
  else ret tt.

Definition OnOrderEvent (orderEvent : ref) : M unit :=
  let* status := OrderEvent_attr "Status" OrderEvent.Status orderEvent in
  if bool_decide (status = OrderStatus.Filled) then
    let* symbol := OrderEvent_attr "Symbol" OrderEvent.Symbol orderEvent in
    Debug ("Purchased Stock: " +:+ Symbol_str symbol)
  else ret tt.

End Strategy.


(** ** Vocabulary of the statements *)

(** The handles [Initialize] obtains from the host. *)
Definition equity_symbol : Symbol := EquitySymbol "SPY".
Definition custom_data_symbol : Symbol := CustomSymbol "MyCustomDataType" equity_symbol.

(** The world in which [Initialize] leaves a strategy started in [w]. *)
Definition initialized (base_member : string → bool) (w : World) : World :=
  (Initialize base_member w).2.

(** The strategy's stored configuration: its own attributes, and the date
    range and subscriptions it registered. *)
Definition configuration (w : World)
    : gmap string value * option Date * option Date * list Subscription :=
  (self w, start_date (host w), end_date (host w), subscriptions (host w)).

(** The host invoking callbacks one after the other; an exception ends the
    callback that raised it, with the effects it had until then. *)
Inductive Call : Type :=
| CallOnData (slice : ref)
| CallOnOrderEvent (orderEvent : ref).

Definition run_call (base_member : string → bool) (c : Call) (w : World) : World :=
  match c with
  | CallOnData slice => (OnData base_member slice w).2
  | CallOnOrderEvent orderEvent => (OnOrderEvent orderEvent w).2
  end.

Definition run_calls (base_member : string → bool) (cs : list Call) (w : World) : World :=
  foldl (fun w c => run_call base_member c w) w cs.

(** [w'] is [w] after the host has been sent the holdings commands [cmds]
    and the diagnostic messages [msgs], and nothing else has changed. *)
Definition sent (w : World) (cmds : list (value * Z)) (msgs : list string) : World :=
  mkWorld (self w)
    (mkHost (start_date (host w)) (end_date (host w)) (subscriptions (host w))
       (holdings_commands (host w) ++ cmds) (debug_messages (host w) ++ msgs))
    (objects w).

(** How many of the calls are data arrivals, how many order events. *)
Fixpoint data_calls (cs : list Call) : nat :=
  match cs with
  | [] => 0
  | CallOnData _ :: cs' => S (data_calls cs')
  | CallOnOrderEvent _ :: cs' => data_calls cs'
  end.

Fixpoint order_calls (cs : list Call) : nat :=
  match cs with
  | [] => 0
  | CallOnData _ :: cs' => order_calls cs'
  | CallOnOrderEvent _ :: cs' => S (order_calls cs')
  end.

Definition is_substring (needle hay : string) : Prop :=
  ∃ pre post : string, hay = pre +:+ needle +:+ post.

(** What the specification promises for a slice without a usable signal:
    the handler returns and nothing has happened. *)
Definition no_action_on_absent_or_other_signal : Prop :=
  ∀ (base_member : string → bool) (w : World) (slice : ref) (sl : Slice.t),
    objects w !! slice = Some (SliceObject sl) →
    (Slice.Get sl !! custom_data_symbol = None
     ∨ ∃ r, Slice.Get sl !! custom_data_symbol = Some r
            ∧ MyCustomDataType.SomeCustomProperty r ≠ "buy"
            ∧ MyCustomDataType.SomeCustomProperty r ≠ "sell") →
    OnData base_member slice (initialized base_member w)
    = (Returned tt, initialized base_member w).

(** Concrete worlds used to exercise the statements. *)
Definition fresh_host : Host := mkHost None None [] [] [].

Definition fresh_world (o : EngineObject) : World :=
  mkWorld ∅ fresh_host {[ 0%nat := o ]}.

Definition slice_with (key : Symbol) (signal : string) : Slice.t :=
  Slice.Build {[ key := MyCustomDataType.Build signal ]}.

Definition no_base_member : string → bool := fun _ => false.

(** ** Running the callbacks *)

Lemma truthy_empty (data : gmap Symbol MyCustomDataType.t) :
  truthy data = false ↔ data = ∅.
Proof.
  unfold truthy. rewrite negb_false_iff, Nat.eqb_eq.
  apply map_size_empty_iff.
Qed.

Lemma truthy_nonempty (data : gmap Symbol MyCustomDataType.t) :
  truthy data = true ↔ data ≠ ∅.
Proof.
  rewrite <- truthy_empty. destruct (truthy data); split; congruence.
Qed.

Lemma Initialize_run (base_member : string → bool) (w : World) :
  Initialize base_member w =
  (Returned tt,
   mkWorld
     (<["custom_data_symbol" := VSymbol custom_data_symbol]>
        (<["equity_symbol" := VSymbol equity_symbol]> (self w)))
     (mkHost (Some (mkDate 2020 10 7)) (Some (mkDate 2020 10 11))
        ((subscriptions (host w) ++ [EquitySubscription "SPY" Resolution.Daily])
           ++ [CustomDataSubscription "MyCustomDataType" equity_symbol])
        (holdings_commands (host w)) (debug_messages (host w)))
     (objects w)).
Proof.
  unfold Initialize, bind, SetStartDate, SetEndDate, AddEquity, bind,
    add_subscription, modify, setattr, modify, ret, getattr.
  cbn. rewrite lookup_insert_eq. reflexivity.
Qed.

Lemma initialized_self (base_member : string → bool) (w : World) :
  self (initialized base_member w) =
  <["custom_data_symbol" := VSymbol custom_data_symbol]>
    (<["equity_symbol" := VSymbol equity_symbol]> (self w)).
Proof. unfold initialized. by rewrite Initialize_run. Qed.

Lemma initialized_objects (base_member : string → bool) (w : World) :
  objects (initialized base_member w) = objects w.
Proof. unfold initialized. by rewrite Initialize_run. Qed.

Lemma initialized_key (base_member : string → bool) (w : World) :
  self (initialized base_member w) !! "custom_data_symbol"
  = Some (VSymbol custom_data_symbol).
Proof. rewrite initialized_self. apply lookup_insert_eq. Qed.

Lemma initialized_equitySymbol (base_member : string → bool) (w : World) :
  self (initialized base_member w) !! "equitySymbol" = self w !! "equitySymbol".
Proof.
  rewrite initialized_self.
  rewrite lookup_insert_ne by discriminate.
  by rewrite lookup_insert_ne by discriminate.
Qed.

(** [OnData] on a world whose instance holds a handle under
    [custom_data_symbol], spelled out branch by branch. *)
Lemma OnData_run (base_member : string → bool) (slice : ref) (w : World)
    (sl : Slice.t) (key : Symbol) :
  objects w !! slice = Some (SliceObject sl) →
  self w !! "custom_data_symbol" = Some (VSymbol key) →
  OnData base_member slice w =
  if truthy (Slice.Get sl) then
    match Slice.Get sl !! key with
    | None => (Raised (KeyError (VSymbol key)), w)
    | Some r =>
        if String.eqb (MyCustomDataType.SomeCustomProperty r) "buy" then
          (let* target := getattr base_member "equitySymbol" in
           SetHoldings target 1) w
        else if String.eqb (MyCustomDataType.SomeCustomProperty r) "sell" then
          (let* target := getattr base_member "equitySymbol" in
           SetHoldings target (-1)) w
        else (Returned tt, w)
    end
  else (Returned tt, w).
Proof.
  intros Hobj Hkey.
  unfold OnData, bind at 1, Slice_Get. rewrite Hobj.
  destruct (truthy (Slice.Get sl)); [| reflexivity].
  unfold bind at 1, getattr at 1. rewrite Hkey.
  unfold bind at 1, getitem.
  destruct (Slice.Get sl !! key) as [r |]; [| reflexivity].
  unfold ret; cbn.
  by repeat case_match.
Qed.

(** A read of an attribute that neither the instance nor the base class
    has. *)
Lemma getattr_missing (base_member : string → bool) (name : string) (w : World) :
  self w !! name = None → base_member name = false →
  getattr base_member name w = (Raised (AttributeError name), w).
Proof. intros Hself Hbase. unfold getattr. by rewrite Hself, Hbase. Qed.

(** Both trading branches read [equitySymbol] before they call the host. *)
Lemma OnData_signal_branch (base_member : string → bool) (slice : ref)
    (w : World) (sl : Slice.t) (key : Symbol) (r : MyCustomDataType.t) :
  objects w !! slice = Some (SliceObject sl) →
  self w !! "custom_data_symbol" = Some (VSymbol key) →
  Slice.Get sl !! key = Some r →
  MyCustomDataType.SomeCustomProperty r = "buy"
  ∨ MyCustomDataType.SomeCustomProperty r = "sell" →
  self w !! "equitySymbol" = None →
  base_member "equitySymbol" = false →
  OnData base_member slice w = (Raised (AttributeError "equitySymbol"), w).
Proof.
  intros Hobj Hkey Hrec Hsig Hself Hbase.
  rewrite (OnData_run _ _ _ _ _ Hobj Hkey).
  assert (truthy (Slice.Get sl) = true) as ->.
  { apply truthy_nonempty. intros Hempty. by rewrite Hempty in Hrec. }
  rewrite Hrec.
  unfold bind. rewrite (getattr_missing _ _ _ Hself Hbase).
  destruct Hsig as [-> | ->]; reflexivity.
Qed.

Lemma sent_nothing (w : World) : sent w [] [] = w.
Proof.
  destruct w as [s [sd ed subs cmds msgs] objs]. unfold sent; cbn.
  by rewrite !app_nil_r.
Qed.

(** Whatever the world and the reference, [OnData] changes the world by at
    most one holdings command, of weight 1 or -1. *)
Lemma OnData_effect (base_member : string → bool) (slice : ref) (w : World) :
  ∃ cmds : list (value * Z),
    (OnData base_member slice w).2 = sent w cmds []
    ∧ (cmds = [] ∨ ∃ target, cmds = [(target, 1)] ∨ cmds = [(target, -1)]).
Proof.
  unfold OnData, bind, Slice_Get, getattr, getitem, SetHoldings, modify,
    set_host, ret, raise.
  repeat case_match; simplify_eq; cbn;
    first
      [ exists []; split; [by rewrite sent_nothing | by left]
      | eexists [(_, _)]; split;
        [ unfold sent; by rewrite app_nil_r
        | right; eexists; (by left) || (by right) ] ].
Qed.

(** [OnOrderEvent] changes the world by at most one diagnostic message. *)
Lemma OnOrderEvent_effect (orderEvent : ref) (w : World) :
  ∃ msgs : list string,
    (OnOrderEvent orderEvent w).2 = sent w [] msgs
    ∧ (msgs = [] ∨ ∃ msg, msgs = [msg]).
Proof.
  unfold OnOrderEvent, bind, OrderEvent_attr, Debug, modify, set_host, ret.
  repeat case_match; simplify_eq; cbn;
    first
      [ exists []; split; [by rewrite sent_nothing | by left]
      | eexists [_]; split;
        [ unfold sent; by rewrite app_nil_r | right; by eexists ] ].
Qed.

Lemma configuration_sent (w : World) (cmds : list (value * Z)) (msgs : list string) :
  configuration (sent w cmds msgs) = configuration w.
Proof. reflexivity. Qed.

Lemma run_call_configuration (base_member : string → bool) (c : Call) (w : World) :
  configuration (run_call base_member c w) = configuration w.
Proof.
  destruct c as [slice | orderEvent]; cbn.
  - destruct (OnData_effect base_member slice w) as (cmds & -> & _).
    apply configuration_sent.
  - destruct (OnOrderEvent_effect orderEvent w) as (msgs & -> & _).
    apply configuration_sent.
Qed.

(** ** The data-arrival handler on a trading signal *)

Lemma initialized_holdings_commands (base_member : string → bool) (w : World) :
  holdings_commands (host (initialized base_member w)) = holdings_commands (host w).
Proof. unfold initialized. by rewrite Initialize_run. Qed.

(** C1.  On a slice whose record for the subscribed handle carries the
    signal "buy", the handler, run on an instance that [Initialize] set up
    and whose class has no [equitySymbol], reads [self.equitySymbol] and
    stops there with an attribute error: the world is as [Initialize] left
    it, so the host has received no holdings command. *)
Theorem OnData_buy_raises_AttributeError
    (base_member : string → bool) (w : World) (slice : ref)
    (sl : Slice.t) (r : MyCustomDataType.t) :
  objects w !! slice = Some (SliceObject sl) →
  Slice.Get sl !! custom_data_symbol = Some r →
  MyCustomDataType.SomeCustomProperty r = "buy" →
  self w !! "equitySymbol" = None →
  base_member "equitySymbol" = false →
  OnData base_member slice (initialized base_member w)
  = (Raised (AttributeError "equitySymbol"), initialized base_member w)
  ∧ holdings_commands (host (OnData base_member slice (initialized base_member w)).2)
    = holdings_commands (host w).
Proof.
  intros Hobj Hrec Hsig Hself Hbase.
  assert (OnData base_member slice (initialized base_member w)
          = (Raised (AttributeError "equitySymbol"), initialized base_member w)) as Hrun.
  { eapply OnData_signal_branch; eauto.
    - by rewrite initialized_objects.
    - apply initialized_key.
    - by rewrite initialized_equitySymbol. }
  split; [exact Hrun |].
  rewrite Hrun; cbn. apply initialized_holdings_commands.
Qed.

Lemma OnData_buy_raises_AttributeError_witness :
  let w := fresh_world (SliceObject (slice_with custom_data_symbol "buy")) in
  OnData no_base_member 0%nat (initialized no_base_member w)
  = (Raised (AttributeError "equitySymbol"), initialized no_base_member w)
  ∧ holdings_commands (host (OnData no_base_member 0%nat (initialized no_base_member w)).2)
    = [].
Proof.
  intros w.
  apply (OnData_buy_raises_AttributeError no_base_member w 0%nat
           (slice_with custom_data_symbol "buy") (MyCustomDataType.Build "buy"));
    reflexivity.
Defined.

(** C2.  The same on the signal "sell": the handler stops at the read of
    [self.equitySymbol] with an attribute error and the host has received
    no holdings command. *)
Theorem OnData_sell_raises_AttributeError
    (base_member : string → bool) (w : World) (slice : ref)
    (sl : Slice.t) (r : MyCustomDataType.t) :
  objects w !! slice = Some (SliceObject sl) →
  Slice.Get sl !! custom_data_symbol = Some r →
  MyCustomDataType.SomeCustomProperty r = "sell" →
  self w !! "equitySymbol" = None →
  base_member "equitySymbol" = false →
  OnData base_member slice (initialized base_member w)
  = (Raised (AttributeError "equitySymbol"), initialized base_member w)
  ∧ holdings_commands (host (OnData base_member slice (initialized base_member w)).2)
    = holdings_commands (host w).
Proof.
  intros Hobj Hrec Hsig Hself Hbase.
  pose proof (initialized_objects base_member w) as Hobjs.
  pose proof (initialized_equitySymbol base_member w) as Heq.
  rewrite <- Hobjs in Hobj. rewrite <- Heq in Hself.
  rewrite (OnData_signal_branch base_member slice _ sl custom_data_symbol r
             Hobj (initialized_key base_member w) Hrec (or_intror Hsig) Hself Hbase).
  split; [reflexivity | apply initialized_holdings_commands].
Qed.

Lemma OnData_sell_raises_AttributeError_witness :
  let w := fresh_world (SliceObject (slice_with custom_data_symbol "sell")) in
  OnData no_base_member 0%nat (initialized no_base_member w)
  = (Raised (AttributeError "equitySymbol"), initialized no_base_member w)
  ∧ holdings_commands (host (OnData no_base_member 0%nat (initialized no_base_member w)).2)
    = [].
Proof.
  intros w.
  apply (OnData_sell_raises_AttributeError no_base_member w 0%nat
           (slice_with custom_data_symbol "sell") (MyCustomDataType.Build "sell"));
    reflexivity.
Defined.

(** C3.  The handler reads [equitySymbol] where [Initialize] wrote
    [equity_symbol]; the names differ, and none of the three operations
    writes [equitySymbol].  So on an instance that had no such attribute
    before [Initialize], of a class that has none either, the read fails
    with an attribute error, and with it the handler on a "buy" or "sell"
    record. *)
Theorem equitySymbol_is_never_assigned
    (base_member : string → bool) (w : World) (slice : ref)
    (sl : Slice.t) (r : MyCustomDataType.t) :
  self w !! "equitySymbol" = None →
  base_member "equitySymbol" = false →
  objects w !! slice = Some (SliceObject sl) →
  Slice.Get sl !! custom_data_symbol = Some r →
  MyCustomDataType.SomeCustomProperty r = "buy"
  ∨ MyCustomDataType.SomeCustomProperty r = "sell" →
  "equitySymbol" ≠ "equity_symbol"
  ∧ (∀ (w' : World) (o : ref),
       self (Initialize base_member w').2 !! "equitySymbol" = self w' !! "equitySymbol"
       ∧ self (OnData base_member o w').2 !! "equitySymbol" = self w' !! "equitySymbol"
       ∧ self (OnOrderEvent o w').2 !! "equitySymbol" = self w' !! "equitySymbol")
  ∧ getattr base_member "equitySymbol" (initialized base_member w)
    = (Raised (AttributeError "equitySymbol"), initialized base_member w)
  ∧ OnData base_member slice (initialized base_member w)
    = (Raised (AttributeError "equitySymbol"), initialized base_member w).
Proof.
  intros Hself Hbase Hobj Hrec Hsig.
  assert (self (initialized base_member w) !! "equitySymbol" = None) as Hinit
    by (by rewrite initialized_equitySymbol).
  split; [discriminate |].
  split.
  { intros w' o. split; [apply initialized_equitySymbol |]. split.
    - by destruct (OnData_effect base_member o w') as (cmds & -> & _).
    - by destruct (OnOrderEvent_effect o w') as (msgs & -> & _). }
  split; [by apply getattr_missing |].
  eapply OnData_signal_branch; eauto.
  - by rewrite initialized_objects.
  - apply initialized_key.
Qed.

Lemma equitySymbol_is_never_assigned_witness :
  let w := fresh_world (SliceObject (slice_with custom_data_symbol "sell")) in
  getattr no_base_member "equitySymbol" (initialized no_base_member w)
  = (Raised (AttributeError "equitySymbol"), initialized no_base_member w).
Proof.
  intros w.
  apply (equitySymbol_is_never_assigned no_base_member w 0%nat
           (slice_with custom_data_symbol "sell") (MyCustomDataType.Build "sell"));
    first [reflexivity | by right].
Defined.

(** C9.  When the mapping of custom records has entries but none under the
    subscribed handle, the handler takes the lookup [data[...]] and fails
    there with a key error; the world is unchanged. *)
Theorem OnData_missing_key_raises_KeyError
    (base_member : string → bool) (w : World) (slice : ref) (sl : Slice.t) :
  objects w !! slice = Some (SliceObject sl) →
  Slice.Get sl ≠ ∅ →
  Slice.Get sl !! custom_data_symbol = None →
  OnData base_member slice (initialized base_member w)
  = (Raised (KeyError (VSymbol custom_data_symbol)), initialized base_member w).
Proof.
  intros Hobj Hne Hrec.
  rewrite <- (initialized_objects base_member) in Hobj.
  rewrite (OnData_run _ _ _ _ _ Hobj (initialized_key base_member w)).
  apply truthy_nonempty in Hne. by rewrite Hne, Hrec.
Qed.

Lemma OnData_missing_key_raises_KeyError_witness :
  let w := fresh_world (SliceObject (slice_with equity_symbol "buy")) in
  OnData no_base_member 0%nat (initialized no_base_member w)
  = (Raised (KeyError (VSymbol custom_data_symbol)), initialized no_base_member w).
Proof.
  intros w.
  apply (OnData_missing_key_raises_KeyError no_base_member w 0%nat
           (slice_with equity_symbol "buy")).
  - reflexivity.
  - intros Hempty.
    apply (f_equal (fun m : gmap Symbol MyCustomDataType.t => m !! equity_symbol)) in Hempty.
    vm_compute in Hempty. discriminate Hempty.
  - reflexivity.
Defined.

(** ** The data-arrival handler without a usable signal *)

(** C4, as the specification words it, fails: a slice that has a record for
    another handle only has no record for the subscribed one, and the
    handler does not return. *)
Lemma no_action_on_absent_or_other_signal_fails :
  ¬ no_action_on_absent_or_other_signal.
Proof.
  intros Hclaim.
  specialize (Hclaim no_base_member
                (fresh_world (SliceObject (slice_with equity_symbol "buy")))
                0%nat (slice_with equity_symbol "buy")).
  vm_compute in Hclaim.
  specialize (Hclaim eq_refl (or_introl eq_refl)).
  discriminate Hclaim.
Qed.

(** C4, amended.  On a slice with no record for the subscribed handle, or
    with one whose signal is neither "buy" nor "sell", the handler sends
    the host nothing and changes nothing.  It returns normally when the
    mapping is empty or the record is there; when the mapping has entries
    but none for the subscribed handle it ends with a key error. *)
Theorem OnData_absent_or_other_signal
    (base_member : string → bool) (w : World) (slice : ref) (sl : Slice.t) :
  objects w !! slice = Some (SliceObject sl) →
  (Slice.Get sl !! custom_data_symbol = None
   ∨ ∃ r, Slice.Get sl !! custom_data_symbol = Some r
          ∧ MyCustomDataType.SomeCustomProperty r ≠ "buy"
          ∧ MyCustomDataType.SomeCustomProperty r ≠ "sell") →
  (OnData base_member slice (initialized base_member w)).2 = initialized base_member w
  ∧ (Slice.Get sl = ∅ ∨ is_Some (Slice.Get sl !! custom_data_symbol) →
     (OnData base_member slice (initialized base_member w)).1 = Returned tt)
  ∧ (Slice.Get sl ≠ ∅ → Slice.Get sl !! custom_data_symbol = None →
     (OnData base_member slice (initialized base_member w)).1
     = Raised (KeyError (VSymbol custom_data_symbol))).
Proof.
  intros Hobj Hcase.
  rewrite <- (initialized_objects base_member) in Hobj.
  rewrite (OnData_run _ _ _ _ _ Hobj (initialized_key base_member w)).
  destruct (truthy (Slice.Get sl)) eqn:Htruthy.
  - apply truthy_nonempty in Htruthy.
    destruct Hcase as [Hnone | (r & Hsome & Hbuy & Hsell)].
    + rewrite Hnone. split; [reflexivity |]. split; [| reflexivity].
      intros [Hempty | [r Hsome]]; [contradiction | congruence].
    + rewrite Hsome.
      apply String.eqb_neq in Hbuy, Hsell. rewrite Hbuy, Hsell.
      split; [reflexivity |]. split; [reflexivity |]. congruence.
  - apply truthy_empty in Htruthy.
    split; [reflexivity |]. split; [reflexivity |]. contradiction.
Qed.

Lemma OnData_absent_or_other_signal_witness :
  let w := fresh_world (SliceObject (slice_with custom_data_symbol "hold")) in
  (OnData no_base_member 0%nat (initialized no_base_member w)).2
  = initialized no_base_member w.
Proof.
  intros w.
  apply (OnData_absent_or_other_signal no_base_member w 0%nat
           (slice_with custom_data_symbol "hold")).
  - reflexivity.
  - right. exists (MyCustomDataType.Build "hold").
    split; [reflexivity |]. split; discriminate.
Defined.

(** C10.  One call of the handler, in any world and on any argument, sends
    the host at most one holdings command, and the weight of a command it
    sends is 1 or -1. *)
Theorem OnData_at_most_one_command
    (base_member : string → bool) (w : World) (slice : ref) :
  ∃ cmds : list (value * Z),
    holdings_commands (host (OnData base_member slice w).2)
    = holdings_commands (host w) ++ cmds
    ∧ (length cmds ≤ 1)%nat
    ∧ Forall (fun c => c.2 = 1 ∨ c.2 = -1) cmds.
Proof.
  destruct (OnData_effect base_member slice w) as (cmds & Hw & Hcmds).
  exists cmds. rewrite Hw. split; [reflexivity |].
  destruct Hcmds as [-> | (target & [-> | ->])]; cbn; (split; [lia |]).
  - constructor.
  - constructor; [by left | constructor].
  - constructor; [by right | constructor].
Qed.

(** The bound is reached: on an instance that does carry an attribute
    [equitySymbol], the "buy" record sends one command of weight 1. *)
Example OnData_buy_with_attribute :
  let w := mkWorld {[ "custom_data_symbol" := VSymbol custom_data_symbol;
                      "equitySymbol" := VSymbol equity_symbol ]}
             fresh_host
             {[ 0%nat := SliceObject (slice_with custom_data_symbol "buy") ]} in
  (OnData no_base_member 0%nat w).1 = Returned tt
  ∧ holdings_commands (host (OnData no_base_member 0%nat w).2)
    = [(VSymbol equity_symbol, 1)].
Proof. split; reflexivity. Qed.

(** ** The order-event handler *)

Lemma append_empty_r (s : string) : s +:+ "" = s.
Proof.
  induction s as [| c s IH]; [reflexivity |].
  change (String c (s +:+ "") = String c s). by rewrite IH.
Qed.

(** C5.  On an order event whose status is [Filled] the handler sends the
    host one diagnostic message, in which the event's instrument identifier
    occurs; on any other status it sends none.  It returns in both cases. *)
Theorem OnOrderEvent_debug_messages (w : World) (orderEvent : ref) (e : OrderEvent.t) :
  objects w !! orderEvent = Some (OrderEventObject e) →
  (OnOrderEvent orderEvent w).1 = Returned tt
  ∧ (OrderEvent.Status e = OrderStatus.Filled →
     ∃ msg, debug_messages (host (OnOrderEvent orderEvent w).2)
            = debug_messages (host w) ++ [msg]
            ∧ is_substring (Symbol_str (OrderEvent.Symbol e)) msg)
  ∧ (OrderEvent.Status e ≠ OrderStatus.Filled →
     debug_messages (host (OnOrderEvent orderEvent w).2) = debug_messages (host w)).
Proof.
  intros Hobj.
  unfold OnOrderEvent, bind, OrderEvent_attr. rewrite Hobj.
  case_bool_decide as Hstatus; cbn.
  - rewrite Hobj; cbn. split; [reflexivity |]. split; [| done].
    intros _. eexists. split; [reflexivity |].
    exists "Purchased Stock: ", "". by rewrite append_empty_r.
  - split; [reflexivity |]. split; [done | reflexivity].
Qed.

Lemma OnOrderEvent_debug_messages_witness :
  let e := OrderEvent.Build OrderStatus.Filled equity_symbol in
  (OnOrderEvent 0%nat (fresh_world (OrderEventObject e))).1 = Returned tt.
Proof.
  intros e.
  apply (OnOrderEvent_debug_messages (fresh_world (OrderEventObject e)) 0%nat e).
  reflexivity.
Defined.

(** ** Initialization *)

(** C6.  [Initialize] returns, having told the host the start date
    2020-10-07, the end date 2020-10-11 and, after what the host had, two
    subscriptions in this order: the equity "SPY" at daily resolution, then
    the custom record type bound to that equity's handle. *)
Theorem Initialize_registers (base_member : string → bool) (w : World) :
  (Initialize base_member w).1 = Returned tt
  ∧ start_date (host (initialized base_member w)) = Some (mkDate 2020 10 7)
  ∧ end_date (host (initialized base_member w)) = Some (mkDate 2020 10 11)
  ∧ subscriptions (host (initialized base_member w))
    = subscriptions (host w)
      ++ [EquitySubscription "SPY" Resolution.Daily;
          CustomDataSubscription "MyCustomDataType" (EquitySymbol "SPY")].
Proof.
  unfold initialized. rewrite Initialize_run; cbn.
  by rewrite <- app_assoc.
Qed.

(** ** What the callbacks leave alone *)

(** C7.  Both handlers leave the store of engine-owned objects as they
    found it, whatever they were called on and however they end. *)
Theorem handlers_leave_engine_objects (base_member : string → bool) (w : World) (o : ref) :
  objects (OnData base_member o w).2 = objects w
  ∧ objects (OnOrderEvent o w).2 = objects w.
Proof.
  split.
  - by destruct (OnData_effect base_member o w) as (cmds & -> & _).
  - by destruct (OnOrderEvent_effect o w) as (msgs & -> & _).
Qed.

(** C8.  [Initialize] stores each of the two handles under its name and
    registers the date range; from then on, whatever sequence of handler
    calls the host makes, the stored configuration stays what [Initialize]
    made it. *)
Theorem configuration_set_once (base_member : string → bool) (w : World) (cs : list Call) :
  configuration (initialized base_member w)
  = (<["custom_data_symbol" := VSymbol custom_data_symbol]>
       (<["equity_symbol" := VSymbol equity_symbol]> (self w)),
     Some (mkDate 2020 10 7), Some (mkDate 2020 10 11),
     subscriptions (host w)
       ++ [EquitySubscription "SPY" Resolution.Daily;
           CustomDataSubscription "MyCustomDataType" equity_symbol])
  ∧ configuration (run_calls base_member cs (initialized base_member w))
    = configuration (initialized base_member w).
Proof.
  split.
  - unfold initialized, configuration. rewrite Initialize_run; cbn.
    by rewrite <- app_assoc.
  - generalize (initialized base_member w) as w1.
    induction cs as [| c cs IH]; intros w1; [reflexivity |].
    cbn. unfold run_calls in IH. rewrite IH.
    apply run_call_configuration.
Qed.


(** * Further properties of the three operations *)

(** ** The guards of the data-arrival handler *)

(** An empty mapping ends the handler at [if data:], before it reads any
    attribute of the instance: it returns with the world untouched, also on
    an instance that was never initialized. *)
Theorem OnData_empty_mapping
    (base_member : string → bool) (w : World) (slice : ref) (sl : Slice.t) :
  objects w !! slice = Some (SliceObject sl) →
  Slice.Get sl = ∅ →
  OnData base_member slice w = (Returned tt, w).
Proof.
  intros Hobj Hempty.
  unfold OnData, bind, Slice_Get. rewrite Hobj.
  apply truthy_empty in Hempty. by rewrite Hempty.
Qed.

Lemma OnData_empty_mapping_witness :
  let w := fresh_world (SliceObject (Slice.Build ∅)) in
  OnData no_base_member 0%nat w = (Returned tt, w).
Proof.
  intros w.
  apply (OnData_empty_mapping no_base_member w 0%nat (Slice.Build ∅)); reflexivity.
Defined.

(** With records in the mapping, the handler reads
    [self.custom_data_symbol] first: on an instance without that attribute
    (one that [Initialize] has not run on) it ends with an attribute error
    on that name, whatever the records are. *)
Theorem OnData_before_Initialize
    (base_member : string → bool) (w : World) (slice : ref) (sl : Slice.t) :
  objects w !! slice = Some (SliceObject sl) →
  Slice.Get sl ≠ ∅ →
  self w !! "custom_data_symbol" = None →
  base_member "custom_data_symbol" = false →
  OnData base_member slice w = (Raised (AttributeError "custom_data_symbol"), w).
Proof.
  intros Hobj Hne Hself Hbase.
  unfold OnData, bind at 1, Slice_Get. rewrite Hobj.
  apply truthy_nonempty in Hne. rewrite Hne.
  unfold bind at 1. by rewrite (getattr_missing _ _ _ Hself Hbase).
Qed.

Lemma OnData_before_Initialize_witness :
  let w := fresh_world (SliceObject (slice_with custom_data_symbol "buy")) in
  OnData no_base_member 0%nat w = (Raised (AttributeError "custom_data_symbol"), w).
Proof.
  intros w.
  apply (OnData_before_Initialize no_base_member w 0%nat
           (slice_with custom_data_symbol "buy")).
  - reflexivity.
  - intros Hempty.
    apply (f_equal (fun m : gmap Symbol MyCustomDataType.t => m !! custom_data_symbol))
      in Hempty.
    vm_compute in Hempty. discriminate Hempty.
  - reflexivity.
  - reflexivity.
Defined.

(** ** The trading branches when the attribute is there *)

(** On an instance that does hold a value under [equitySymbol], the handler
    returns and the host has received exactly: one command for that value
    with weight 1 on "buy", one with weight -1 on "sell", nothing on any
    other signal.  The comparison with "buy" comes first. *)
Theorem OnData_with_attribute
    (base_member : string → bool) (w : World) (slice : ref) (sl : Slice.t)
    (key : Symbol) (r : MyCustomDataType.t) (target : value) :
  objects w !! slice = Some (SliceObject sl) →
  self w !! "custom_data_symbol" = Some (VSymbol key) →
  Slice.Get sl !! key = Some r →
  self w !! "equitySymbol" = Some target →
  OnData base_member slice w =
  (Returned tt,
   sent w
     (if String.eqb (MyCustomDataType.SomeCustomProperty r) "buy" then [(target, 1)]
      else if String.eqb (MyCustomDataType.SomeCustomProperty r) "sell" then [(target, -1)]
      else [])
     []).
Proof.
  intros Hobj Hkey Hrec Hattr.
  rewrite (OnData_run _ _ _ _ _ Hobj Hkey).
  assert (truthy (Slice.Get sl) = true) as ->.
  { apply truthy_nonempty. intros Hempty. by rewrite Hempty in Hrec. }
  rewrite Hrec.
  unfold bind, getattr. rewrite Hattr.
  unfold SetHoldings, modify, set_host, sent.
  repeat case_match; cbn; rewrite ?app_nil_r; try reflexivity.
  by destruct w as [s [sd ed subs cmds msgs] objs].
Qed.

Lemma OnData_with_attribute_witness :
  let w := mkWorld {[ "custom_data_symbol" := VSymbol custom_data_symbol;
                      "equitySymbol" := VSymbol equity_symbol ]}
             fresh_host
             {[ 0%nat := SliceObject (slice_with custom_data_symbol "sell") ]} in
  OnData no_base_member 0%nat w
  = (Returned tt, sent w [(VSymbol equity_symbol, -1)] []).
Proof.
  intros w.
  apply (OnData_with_attribute no_base_member w 0%nat
           (slice_with custom_data_symbol "sell") custom_data_symbol
           (MyCustomDataType.Build "sell") (VSymbol equity_symbol));
    reflexivity.
Defined.

(** Whether a command is sent, read off the handler: it is sent exactly
    when the mapping has a record under the handle the instance stores,
    the record's signal is "buy" or "sell", and [equitySymbol] can be read
    (from the instance or from the base class). *)
Theorem OnData_sends_iff
    (base_member : string → bool) (w : World) (slice : ref) (sl : Slice.t)
    (key : Symbol) :
  objects w !! slice = Some (SliceObject sl) →
  self w !! "custom_data_symbol" = Some (VSymbol key) →
  holdings_commands (host (OnData base_member slice w).2) ≠ holdings_commands (host w)
  ↔ ∃ r, Slice.Get sl !! key = Some r
         ∧ (MyCustomDataType.SomeCustomProperty r = "buy"
            ∨ MyCustomDataType.SomeCustomProperty r = "sell")
         ∧ (is_Some (self w !! "equitySymbol") ∨ base_member "equitySymbol" = true).
Proof.
  intros Hobj Hkey.
  assert (∀ (l : list (value * Z)) c, l ++ [c] ≠ l) as Hgrow.
  { intros l c Heq. apply (f_equal length) in Heq.
    rewrite length_app in Heq; cbn in Heq. lia. }
  rewrite (OnData_run _ _ _ _ _ Hobj Hkey).
  destruct (truthy (Slice.Get sl)) eqn:Htruthy.
  - destruct (Slice.Get sl !! key) as [r |] eqn:Hrec; cbn.
    + unfold bind, getattr, SetHoldings, modify, set_host.
      destruct (String.eqb_spec (MyCustomDataType.SomeCustomProperty r) "buy") as [Hbuy | Hbuy];
        [| destruct (String.eqb_spec (MyCustomDataType.SomeCustomProperty r) "sell")
             as [Hsell | Hsell]].
      * destruct (self w !! "equitySymbol") as [t |] eqn:Hattr; cbn.
        { split; [| intros _; apply Hgrow].
          intros _. exists r. split; [done |]. split; [by left | left; by eexists]. }
        destruct (base_member "equitySymbol") eqn:Hbase; cbn.
        { split; [| intros _; apply Hgrow].
          intros _. exists r. split; [done |]. split; [by left | by right]. }
        split; [done |].
        intros (r' & _ & _ & [[t Ht] | Hb]); congruence.
      * destruct (self w !! "equitySymbol") as [t |] eqn:Hattr; cbn.
        { split; [| intros _; apply Hgrow].
          intros _. exists r. split; [done |]. split; [by right | left; by eexists]. }
        destruct (base_member "equitySymbol") eqn:Hbase; cbn.
        { split; [| intros _; apply Hgrow].
          intros _. exists r. split; [done |]. split; [by right | by right]. }
        split; [done |].
        intros (r' & _ & _ & [[t Ht] | Hb]); congruence.
      * cbn. split; [done |].
        intros (r' & Hr' & [Hb | Hs] & _); congruence.
    + split; [done |]. intros (r' & Hr' & _); congruence.
  - cbn. split; [done |].
    apply truthy_empty in Htruthy. rewrite Htruthy.
    intros (r' & Hr' & _). by rewrite lookup_empty in Hr'.
Qed.

Lemma OnData_sends_iff_witness :
  let w := mkWorld {[ "custom_data_symbol" := VSymbol custom_data_symbol ]}
             fresh_host
             {[ 0%nat := SliceObject (slice_with custom_data_symbol "buy") ]} in
  holdings_commands (host (OnData (fun _ => true) 0%nat w).2) ≠ holdings_commands (host w).
Proof.
  intros w.
  apply (OnData_sends_iff (fun _ => true) w 0%nat
           (slice_with custom_data_symbol "buy") custom_data_symbol);
    [reflexivity | reflexivity |].
  exists (MyCustomDataType.Build "buy").
  split; [reflexivity |]. split; [by left | by right].
Defined.

(** The decision depends on the record under the stored handle only: two
    slices with records in them that agree on that handle give the same
    outcome and the same world, whatever else they hold. *)
Theorem OnData_ignores_other_records
    (base_member : string → bool) (w : World) (slice1 slice2 : ref)
    (sl1 sl2 : Slice.t) (key : Symbol) :
  objects w !! slice1 = Some (SliceObject sl1) →
  objects w !! slice2 = Some (SliceObject sl2) →
  self w !! "custom_data_symbol" = Some (VSymbol key) →
  Slice.Get sl1 ≠ ∅ →
  Slice.Get sl2 ≠ ∅ →
  Slice.Get sl1 !! key = Slice.Get sl2 !! key →
  OnData base_member slice1 w = OnData base_member slice2 w.
Proof.
  intros Hobj1 Hobj2 Hkey Hne1 Hne2 Hsame.
  rewrite (OnData_run _ _ _ _ _ Hobj1 Hkey), (OnData_run _ _ _ _ _ Hobj2 Hkey).
  apply truthy_nonempty in Hne1, Hne2.
  by rewrite Hne1, Hne2, Hsame.
Qed.

Lemma OnData_ignores_other_records_witness :
  let sl1 := slice_with custom_data_symbol "hold" in
  let sl2 := Slice.Build (<[ equity_symbol := MyCustomDataType.Build "buy" ]>
                            (Slice.Get sl1)) in
  let w := mkWorld {[ "custom_data_symbol" := VSymbol custom_data_symbol ]}
             fresh_host
             {[ 0%nat := SliceObject sl1; 1%nat := SliceObject sl2 ]} in
  OnData no_base_member 0%nat w = OnData no_base_member 1%nat w.
Proof.
  intros sl1 sl2 w.
  apply (OnData_ignores_other_records no_base_member w 0%nat 1%nat sl1 sl2
           custom_data_symbol); try reflexivity.
  - intros Hempty.
    apply (f_equal (fun m : gmap Symbol MyCustomDataType.t => m !! custom_data_symbol))
      in Hempty.
    vm_compute in Hempty. discriminate Hempty.
  - intros Hempty.
    apply (f_equal (fun m : gmap Symbol MyCustomDataType.t => m !! custom_data_symbol))
      in Hempty.
    vm_compute in Hempty. discriminate Hempty.
Defined.

(** ** Exceptions *)



(** ** Each handler keeps to its own channel *)

(** The data-arrival handler never writes a diagnostic message and the
    order-event handler never sends a holdings command, in any world and on
    any argument. *)
Theorem handlers_keep_to_their_channel
    (base_member : string → bool) (w : World) (o : ref) :
  debug_messages (host (OnData base_member o w).2) = debug_messages (host w)
  ∧ holdings_commands (host (OnOrderEvent o w).2) = holdings_commands (host w).
Proof.
  split.
  - destruct (OnData_effect base_member o w) as (cmds & -> & _); cbn.
    apply app_nil_r.
  - destruct (OnOrderEvent_effect o w) as (msgs & -> & _); cbn.
    apply app_nil_r.
Qed.

(** ** Sequences of calls *)

Lemma sent_sent (w : World) (cmds1 cmds2 : list (value * Z)) (msgs1 msgs2 : list string) :
  sent (sent w cmds1 msgs1) cmds2 msgs2 = sent w (cmds1 ++ cmds2) (msgs1 ++ msgs2).
Proof. unfold sent; cbn. by rewrite !app_assoc. Qed.

Lemma run_calls_cons (base_member : string → bool) (c : Call) (cs : list Call) (w : World) :
  run_calls base_member (c :: cs) w
  = run_calls base_member cs (run_call base_member c w).
Proof. reflexivity. Qed.

(** Over any sequence of handler calls the host's two logs only grow at the
    end: what was sent before stays, in order; at most one holdings command
    is added per data arrival, each of weight 1 or -1, and at most one
    message per order event.  Nothing else in the world changes. *)
Theorem run_calls_append_only
    (base_member : string → bool) (cs : list Call) (w : World) :
  ∃ (cmds : list (value * Z)) (msgs : list string),
    run_calls base_member cs w = sent w cmds msgs
    ∧ (length cmds ≤ data_calls cs)%nat
    ∧ (length msgs ≤ order_calls cs)%nat
    ∧ Forall (fun c => c.2 = 1 ∨ c.2 = -1) cmds.
Proof.
  revert w. induction cs as [| c cs IH]; intros w.
  - exists [], []. cbn. rewrite sent_nothing. repeat split; [lia | lia | constructor].
  - rewrite run_calls_cons.
    destruct (IH (run_call base_member c w)) as (cmds & msgs & -> & Hc & Hm & Hw).
    destruct c as [slice | orderEvent]; cbn [run_call data_calls order_calls].
    + destruct (OnData_effect base_member slice w) as (cmds0 & -> & Hshape).
      exists (cmds0 ++ cmds), msgs. rewrite sent_sent. split; [reflexivity |].
      rewrite length_app.
      destruct Hshape as [-> | (t & [-> | ->])]; cbn;
        (split; [lia |]); (split; [lia |]); try done;
        constructor; try done; cbn; auto.
    + destruct (OnOrderEvent_effect orderEvent w) as (msgs0 & -> & Hshape).
      exists cmds, (msgs0 ++ msgs). rewrite sent_sent. split; [reflexivity |].
      rewrite length_app.
      destruct Hshape as [-> | (m & ->)]; cbn; repeat split; (lia || done).
Qed.

Lemma OnData_without_attribute (base_member : string → bool) (slice : ref) (w : World) :
  self w !! "equitySymbol" = None →
  base_member "equitySymbol" = false →
  (OnData base_member slice w).2 = w.
Proof.
  intros Hself Hbase.
  unfold OnData, bind, Slice_Get, getattr, getitem, SetHoldings, modify,
    set_host, ret, raise.
  repeat case_match; simplify_eq; cbn; congruence.
Qed.

(** The strategy as written never trades: started on an instance without
    an attribute [equitySymbol], of a class that has none, [Initialize]
    followed by any sequence of handler calls leaves the host with the
    holdings commands it had before. *)
Theorem strategy_never_trades
    (base_member : string → bool) (w : World) (cs : list Call) :
  self w !! "equitySymbol" = None →
  base_member "equitySymbol" = false →
  holdings_commands (host (run_calls base_member cs (initialized base_member w)))
  = holdings_commands (host w).
Proof.
  intros Hself Hbase.
  rewrite <- (initialized_holdings_commands base_member w).
  rewrite <- (initialized_equitySymbol base_member w) in Hself.
  revert Hself. generalize (initialized base_member w) as w1.
  induction cs as [| c cs IH]; intros w1 Hself; [reflexivity |].
  rewrite run_calls_cons.
  destruct c as [slice | orderEvent]; cbn [run_call].
  - rewrite (OnData_without_attribute _ _ _ Hself Hbase). by apply IH.
  - destruct (OnOrderEvent_effect orderEvent w1) as (msgs & -> & _).
    rewrite IH by exact Hself. cbn. apply app_nil_r.
Qed.

Lemma strategy_never_trades_witness :
  let w := fresh_world (SliceObject (slice_with custom_data_symbol "buy")) in
  holdings_commands
    (host (run_calls no_base_member [CallOnData 0%nat; CallOnData 0%nat]
             (initialized no_base_member w)))
  = [].
Proof.
  intros w.
  apply (strategy_never_trades no_base_member w [CallOnData 0%nat; CallOnData 0%nat]);
    reflexivity.
Defined.

(** ** What [Initialize] touches *)

(** [Initialize] writes the two attributes and nothing else of the
    instance: any other attribute reads as before.  It sends no holdings
    command and no message and leaves the engine's objects alone. *)
Theorem Initialize_frame (base_member : string → bool) (w : World) (name : string) :
  name ≠ "equity_symbol" →
  name ≠ "custom_data_symbol" →
  self (initialized base_member w) !! name = self w !! name
  ∧ holdings_commands (host (initialized base_member w)) = holdings_commands (host w)
  ∧ debug_messages (host (initialized base_member w)) = debug_messages (host w)
  ∧ objects (initialized base_member w) = objects w.
Proof.
  intros Hne1 Hne2.
  unfold initialized. rewrite Initialize_run; cbn.
  repeat split.
  rewrite lookup_insert_ne by done. by rewrite lookup_insert_ne by done.
Qed.

Lemma Initialize_frame_witness :
  let w := mkWorld {[ "equitySymbol" := VBaseMember "x" ]} fresh_host ∅ in
  self (initialized no_base_member w) !! "equitySymbol" = Some (VBaseMember "x").
Proof.
  intros w.
  apply (Initialize_frame no_base_member w "equitySymbol"); discriminate.
Defined.


(** Running [Initialize] a second time stores the same attributes and the
    same dates, and registers the two subscriptions once more, after the
    first pair. *)
Theorem Initialize_twice (base_member : string → bool) (w : World) :
  let w1 := initialized base_member w in
  let w2 := initialized base_member w1 in
  self w2 = self w1
  ∧ start_date (host w2) = start_date (host w1)
  ∧ end_date (host w2) = end_date (host w1)
  ∧ subscriptions (host w2)
    = subscriptions (host w)
      ++ [EquitySubscription "SPY" Resolution.Daily;
          CustomDataSubscription "MyCustomDataType" equity_symbol;
          EquitySubscription "SPY" Resolution.Daily;
          CustomDataSubscription "MyCustomDataType" equity_symbol].
Proof.
  intros w1 w2. subst w2 w1. unfold initialized.
  rewrite !Initialize_run; cbn.
  split.
  { apply map_eq. intros i. rewrite !lookup_insert. by repeat case_decide. }
  repeat split. by rewrite <- !app_assoc.
Qed.
